(** * Portfolio Dashboard backend (src/app.py): a shallow embedding

    The Flask application of [src/app.py] is a module-level catalog
    [SITES] (a Python list of dicts), five view functions bound to URL
    rules by [@app.route], and two [@app.errorhandler]s.  This file
    embeds them as functions of a small state-and-exception monad and
    proves the properties the specification states about them.

    - Python values that reach [jsonify] are the type [val]; a [dict]
      is a [gmap] from strings to values, a [str] is its sequence of
      Unicode code points.
    - The module global [SITES] lives in the [State], next to the log
      of outbound GETs the process has issued.
    - What a handler reads from outside the process (the clock, the
      answer of [requests.get], the template loader) is the [Env].
    - What the URL rules take from the interpreter (the Unicode
      database behind [\d], the digit limit of [int]) is the
      [Runtime]. *)

From stdpp Require Import gmap strings list fin_maps.
From Stdlib Require Import ZArith NArith Ascii.

#[local] Set Warnings "-register-all".
#[local] Open Scope Z_scope.

(** ** Python values *)

(** A Python [str] is a sequence of Unicode code points; [s[:n]] and
    [len(s)] count code points, not encoded bytes. *)
Abbreviation char := N (only parsing).
Abbreviation str := (list N) (only parsing).

(** A string literal of the source (all of them are ASCII). *)
Definition lit (s : string) : str :=
  N_of_ascii <$> String.list_ascii_of_string s.

(** The values the handlers build and hand to [jsonify]. *)
Inductive val :=
| VNone
| VBool (b : bool)
| VInt (n : Z)
| VStr (s : str)
| VList (l : list val)
| VDict (d : gmap str val).

Abbreviation dict := (gmap str val) (only parsing).

(** [bool(v)]: Python's truth value, as [if v:] and [not v] test it. *)
Definition truthy (v : val) : bool :=
  match v with
  | VNone => false
  | VBool b => b
  | VInt n => negb (n =? 0)
  | VStr s => negb (length s =? 0)%nat
  | VList l => negb (length l =? 0)%nat
  | VDict d => negb (size d =? 0)%nat
  end.

(** [v == n] for an [int] [n].  [bool] is a subclass of [int]
    ([True == 1]); [None], a [str], a [list] or a [dict] never equals
    an [int]. *)
Definition eq_int (v : val) (n : Z) : bool :=
  match v with
  | VInt m => m =? n
  | VBool b => Z.b2z b =? n
  | _ => false
  end.

(** [s[:n]] on a [str]. *)
Definition slice_to (n : nat) (s : str) : str := take n s.

(** ** [datetime.now().isoformat()] *)

(** A naive [datetime]; Python keeps every field in its range
    (year 1..9999, month 1..12, ..., microsecond 0..999999). *)
Record datetime := {
  year : N; month : N; day : N;
  hour : N; minute : N; second : N; microsecond : N
}.

Definition digit_char (d : N) : char := (48 + d mod 10)%N.

(** The [w] low-order decimal digits of [n], most significant first:
    ["%0wd" % n] for a field within its range. *)
Fixpoint zero_padded (w : nat) (n : N) : str :=
  match w with
  | O => []
  | S w' => zero_padded w' (n / 10)%N ++ [digit_char n]
  end.

(** [datetime.isoformat()] with the defaults [sep='T'],
    [timespec='auto']: the fraction is printed only when the
    microsecond field is not zero. *)
Definition isoformat (t : datetime) : str :=
  zero_padded 4 (year t) ++ lit "-" ++ zero_padded 2 (month t) ++ lit "-"
  ++ zero_padded 2 (day t) ++ lit "T"
  ++ zero_padded 2 (hour t) ++ lit ":" ++ zero_padded 2 (minute t) ++ lit ":"
  ++ zero_padded 2 (second t)
  ++ (if (microsecond t =? 0)%N then []
      else lit "." ++ zero_padded 6 (microsecond t)).

(** Recogniser of the two shapes [isoformat] prints:
    [YYYY-MM-DDTHH:MM:SS] and [YYYY-MM-DDTHH:MM:SS.ffffff]. *)
Definition is_digit (c : char) : bool := ((48 <=? c) && (c <=? 57))%N.

Fixpoint matches_shape (shape : list (option char)) (s : str) : bool :=
  match shape, s with
  | [], [] => true
  | None :: shape', c :: s' => is_digit c && matches_shape shape' s'
  | Some k :: shape', c :: s' => (c =? k)%N && matches_shape shape' s'
  | _, _ => false
  end.

Definition shape_of (pattern : string) : list (option char) :=
  (λ c, if (c =? 100)%N then None else Some c) <$> lit pattern.

Definition is_iso8601 (s : str) : bool :=
  matches_shape (shape_of "dddd-dd-ddTdd:dd:dd") s
  || matches_shape (shape_of "dddd-dd-ddTdd:dd:dd.dddddd") s.

(** ** Exceptions, responses, the process state and its environment *)

(** The exception classes the handlers can meet.  [RequestException]
    stands for [requests.RequestException] and all its subclasses
    ([ConnectionError], [Timeout], [SSLError], [InvalidURL],
    [MissingSchema], ...), carrying [str(e)].  [OtherException] is an
    exception of any class outside these (urllib3's
    [LocationParseError], [UnicodeError], ...), with its [str(e)]. *)
Inductive exn :=
| KeyError (key : str)
| RequestException (description : str)
| TemplateNotFound (name : str)
| OtherException (description : str).

Inductive outcome (A : Type) :=
| Ok (a : A)
| Raise (e : exn).
Arguments Ok {A} a.
Arguments Raise {A} e.

(** What [requests.get] returns: [response.status_code],
    [response.text] (the body as [requests] decoded it) and
    [response.headers]. *)
Record upstream := {
  status_code : Z;
  text : str;
  headers : gmap str str
}.

(** What [jsonify] or [render_template] produced, with the status the
    view returned next to it. *)
Inductive payload :=
| Json (v : val)
| Html (page : str).

Record Response := { status : Z; body : payload }.

(** The request as the views read it: [request.path] and
    [request.args] (a multi-dict, in query-string order).  All five
    rules are registered for GET. *)
Record Request := { path : str; args : list (str * str) }.

(** The module global [SITES] and the outbound GETs issued so far
    (target and timeout, oldest first). *)
Record State := {
  g_SITES : list (gmap str val);
  outbound : list (str * Z)
}.

(** The world outside the process while one request is served.  A
    template is rendered inside the request context, so what it
    yields may depend on the request. *)
Record Env := {
  clock : datetime;
  network : str → Z → outcome upstream;
  templates : str → Request → outcome str
}.

Definition M (A : Type) : Type := Env → State → outcome A * State.

#[global] Instance M_ret : MRet M := λ A a _ st, (Ok a, st).
#[global] Instance M_bind : MBind M := λ A B f m env st,
  match m env st with
  | (Ok a, st') => f a env st'
  | (Raise e, st') => (Raise e, st')
  end.

Definition raise {A} (e : exn) : M A := λ _ st, (Raise e, st).

(** [try: m except requests.RequestException as e: h e]; any other
    exception passes through. *)
Definition try_except_RequestException {A} (m : M A) (h : str → M A) : M A :=
  λ env st,
    match m env st with
    | (Raise (RequestException d), st') => h d env st'
    | r => r
    end.

(** Reading the global [SITES]. *)
Definition read_SITES : M (list (gmap str val)) := λ _ st, (Ok (g_SITES st), st).

(** [datetime.now()]. *)
Definition datetime_now : M datetime := λ env st, (Ok (clock env), st).

(** [requests.get(url, timeout=t)]: one outbound GET, logged. *)
Definition requests_get (url : str) (timeout : Z) : M upstream := λ env st,
  (network env url timeout,
   {| g_SITES := g_SITES st; outbound := outbound st ++ [(url, timeout)] |}).

(** [render_template(name)], in the context of [request]. *)
Definition render_template (name : str) (request : Request) : M str := λ env st,
  (templates env name request, st).

(** [jsonify(v)] is a 200 response; [return r, code] replaces the status. *)
Definition jsonify (v : val) : Response := {| status := 200; body := Json v |}.
Definition with_status (r : Response) (code : Z) : Response :=
  {| status := code; body := body r |}.

(** [request.args.get(key)]: the first value of [key], or [None]. *)
Fixpoint args_get (key : str) (a : list (str * str)) : option str :=
  match a with
  | [] => None
  | (k, v) :: a' => if decide (k = key) then Some v else args_get key a'
  end.

(** ** Site configuration *)

Definition SITES : list (gmap str val) := [
  {[ lit "id" := VInt 1;
     lit "url" := VStr (lit "http://76.102.42.17:5100/");
     lit "title" := VStr (lit "Main Site (Port 5100)");
     lit "description" := VStr (lit "Primary portfolio website");
     lit "category" := VStr (lit "main") ]};
  {[ lit "id" := VInt 2;
     lit "url" := VStr (lit "http://76.102.42.17:5000/video");
     lit "title" := VStr (lit "Video Demo");
     lit "description" := VStr (lit "Video demonstration and media showcase");
     lit "category" := VStr (lit "projects") ]};
  {[ lit "id" := VInt 3;
     lit "url" := VStr (lit "https://instructions.online/?id=4610-25-0922-0650-rq200-servoarms_small-now");
     lit "title" := VStr (lit "Instructions Online");
     lit "description" := VStr (lit "RQ200 Servo Arms instructions and guide");
     lit "category" := VStr (lit "docs") ]};
  {[ lit "id" := VInt 4;
     lit "url" := VStr (lit "http://quest.tny.cc/r200-ServoArmSm_Left-Test");
     lit "title" := VStr (lit "Quest Test - Servo Arm Left");
     lit "description" := VStr (lit "R200 ServoArm Left interactive test");
     lit "category" := VStr (lit "projects") ]}
].

(** The process right after the module is imported. *)
Definition startup : State := {| g_SITES := SITES; outbound := [] |}.

(** ** Route handlers *)

(** [home]: [render_template('index.html')]. *)
Definition home (request : Request) : M Response :=
  page ← render_template (lit "index.html") request;
  mret {| status := 200; body := Html page |}.

(** [get_sites]. *)
Definition get_sites : M Response :=
  sites ← read_SITES;
  t ← datetime_now;
  mret (jsonify (VDict {[
    lit "success" := VBool true;
    lit "data" := VList (VDict <$> sites);
    lit "timestamp" := VStr (isoformat t) ]})).

(** [next((s for s in sites if s['id'] == site_id), None)]: the
    generator is consumed up to its first hit; [s['id']] raises
    [KeyError] on a dict without that key. *)
Fixpoint next_with_id (site_id : Z) (sites : list (gmap str val)) : M val :=
  match sites with
  | [] => mret VNone
  | s :: rest =>
      match s !! lit "id" with
      | None => raise (KeyError (lit "id"))
      | Some v => if eq_int v site_id then mret (VDict s)
                  else next_with_id site_id rest
      end
  end.

(** [get_site(site_id)]. *)
Definition get_site (site_id : Z) : M Response :=
  sites ← read_SITES;
  site ← next_with_id site_id sites;
  if truthy site then
    mret (jsonify (VDict {[
      lit "success" := VBool true;
      lit "data" := site ]}))
  else
    mret (with_status (jsonify (VDict {[
      lit "success" := VBool false;
      lit "error" := VStr (lit "Site not found") ]})) 404).

(** [proxy_request].  [if not target_url] holds for [None] (parameter
    absent) and for the empty [str]; only a non-empty [str] reaches
    [requests.get]. *)
Definition proxy_request (request : Request) : M Response :=
  let target_url := args_get (lit "url") (args request) in
  let url_required :=
    with_status (jsonify (VDict {[
      lit "success" := VBool false;
      lit "error" := VStr (lit "URL parameter is required") ]})) 400 in
  match target_url with
  | None => mret url_required
  | Some url =>
      if negb (truthy (VStr url)) then mret url_required
      else
        try_except_RequestException
          (response ← requests_get url 10;
           mret (jsonify (VDict {[
             lit "success" := VBool true;
             lit "status_code" := VInt (status_code response);
             lit "content" := VStr (slice_to 1000 (text response));
             lit "headers" := VDict (VStr <$> headers response) ]})))
          (λ e,
           mret (with_status (jsonify (VDict {[
             lit "success" := VBool false;
             lit "error" := VStr e ]})) 500))
  end.

(** [health_check]. *)
Definition health_check : M Response :=
  t ← datetime_now;
  mret (jsonify (VDict {[
    lit "status" := VStr (lit "healthy");
    lit "timestamp" := VStr (isoformat t);
    lit "service" := VStr (lit "Portfolio Dashboard API") ]})).

(** ** Error handlers *)

(** [not_found(error)], registered for 404. *)
Definition not_found : Response :=
  with_status (jsonify (VDict {[
    lit "success" := VBool false;
    lit "error" := VStr (lit "Endpoint not found") ]})) 404.

(** [internal_error(error)], registered for 500. *)
Definition internal_error : Response :=
  with_status (jsonify (VDict {[
    lit "success" := VBool false;
    lit "error" := VStr (lit "Internal server error") ]})) 500.

(** ** URL rules and dispatch *)

(** The view a path is bound to, with the converted rule variables. *)
Inductive endpoint :=
| EP_home
| EP_get_sites
| EP_get_site (site_id : Z)
| EP_proxy_request
| EP_health_check.

Fixpoint strip_prefix (prefix s : str) : option str :=
  match prefix, s with
  | [], _ => Some s
  | c :: prefix', d :: s' =>
      if (c =? d)%N then strip_prefix prefix' s' else None
  | _ :: _, [] => None
  end.

(** What the URL rules take from the Python the app runs on: the
    Unicode database ([unicodedata.decimal]: the value of a decimal
    digit, nothing for any other character) and the limit on the
    length of a digit string that [int] converts
    ([sys.get_int_max_str_digits()]: 4300 by default, 0 for no
    limit). *)
Record Runtime := {
  unicode_decimal : char → option N;
  int_max_str_digits : nat
}.

(** In every Python the ASCII characters with a decimal value are
    ['0'..'9']. *)
Definition runtime_ok (py : Runtime) : Prop :=
  ∀ c, (c < 128)%N →
    unicode_decimal py c = if is_digit c then Some (c - 48)%N else None.

(** The regular expression [\d+]: one or more decimal digits, of any
    script; no sign, no dot, no space. *)
Definition matches_digits (py : Runtime) (segment : str) : bool :=
  negb (length segment =? 0)%nat
  && forallb (λ c, match unicode_decimal py c with
                   | Some _ => true
                   | None => false
                   end) segment.

(** The number a string of decimal digits denotes. *)
Definition digits_value (py : Runtime) (segment : str) : Z :=
  fold_left (λ acc c, 10 * acc + Z.of_N (default 0%N (unicode_decimal py c)))
            segment 0.

(** [int(segment)] on a string of decimal digits; nothing when the
    string has more digits than the limit allows and [int] raises
    [ValueError]. *)
Definition int_of_digits (py : Runtime) (segment : str) : option Z :=
  if negb (int_max_str_digits py =? 0)%nat
     && (int_max_str_digits py <? length segment)%nat
  then None
  else Some (digits_value py segment).

(** The [<int:...>] converter of a rule: the segment has to match
    [\d+] and is then converted with [int]; when either fails the
    rule does not match. *)
Definition int_converter (py : Runtime) (segment : str) : option Z :=
  if matches_digits py segment then int_of_digits py segment else None.

(** The URL map the five [@app.route] decorators build.  A rule
    without a trailing slash matches its path exactly.  Two things
    Flask adds on its own are not part of this map: the redirect it
    sends for a path with a doubled slash that matches a rule once
    the slashes are merged, and its rule for [/static/]. *)
Definition url_map (py : Runtime) (p : str) : option endpoint :=
  if decide (p = lit "/") then Some EP_home
  else if decide (p = lit "/api/sites") then Some EP_get_sites
  else
    match strip_prefix (lit "/api/sites/") p ≫= int_converter py with
    | Some site_id => Some (EP_get_site site_id)
    | None =>
        if decide (p = lit "/api/proxy") then Some EP_proxy_request
        else if decide (p = lit "/api/health") then Some EP_health_check
        else None
    end.

Definition view (ep : endpoint) (request : Request) : M Response :=
  match ep with
  | EP_home => home request
  | EP_get_sites => get_sites
  | EP_get_site site_id => get_site site_id
  | EP_proxy_request => proxy_request request
  | EP_health_check => health_check
  end.

(** Flask's dispatch of one request, as the server runs it with
    exception propagation off: no rule matches -> the 404 handler;
    the view raises -> the 500 handler; otherwise the view's response.
    The result is the response sent and the state left behind. *)
Definition serve (py : Runtime) (env : Env) (request : Request) (st : State)
    : Response * State :=
  match url_map py (path request) with
  | None => (not_found, st)
  | Some ep =>
      match view ep request env st with
      | (Ok r, st') => (r, st')
      | (Raise _, st') => (internal_error, st')
      end
  end.

(** The process lifetime: requests served one after the other, each
    under the environment of its moment. *)
Fixpoint run (py : Runtime) (requests : list (Env * Request)) (st : State)
    : list Response * State :=
  match requests with
  | [] => ([], st)
  | (env, request) :: rest =>
      let '(r, st') := serve py env request st in
      let '(rs, st'') := run py rest st' in
      (r :: rs, st'')
  end.

(** ** Catalog invariant *)

(** The integer a site carries under ['id'], if it does. *)
Definition site_id_of (s : gmap str val) : option Z :=
  match s !! lit "id" with
  | Some (VInt n) => Some n
  | _ => None
  end.

(** Every record has an integer ['id'], and no two records share one. *)
Definition catalog_ok (sites : list (gmap str val)) : Prop :=
  Forall (λ s, is_Some (site_id_of s)) sites ∧ NoDup (site_id_of <$> sites).

(** What the generator's test [s['id'] == site_id] does on one record:
    [None] when [s['id']] raises [KeyError], otherwise the result of
    the comparison. *)
Definition id_test (site_id : Z) (s : gmap str val) : option bool :=
  (λ v, eq_int v site_id) <$> s !! lit "id".

(** ** The responses the server sends *)

(** The error envelope [{success: False, error: message}] returned
    with status [code], and the success envelope of the proxy. *)
Definition error_envelope (message : str) (code : Z) : Response :=
  with_status (jsonify (VDict {[
    lit "success" := VBool false;
    lit "error" := VStr message ]})) code.

Definition proxy_envelope (response : upstream) : Response :=
  jsonify (VDict {[
    lit "success" := VBool true;
    lit "status_code" := VInt (status_code response);
    lit "content" := VStr (slice_to 1000 (text response));
    lit "headers" := VDict (VStr <$> headers response) ]}).

(** Every [return] of the five views: the responses the view bound
    to [ep] can produce in state [st] under [env]. *)
Inductive answer (env : Env) (st : State) : endpoint → Response → Prop :=
| answer_home (page : str) :
    answer env st EP_home {| status := 200; body := Html page |}
| answer_get_sites :
    answer env st EP_get_sites (jsonify (VDict {[
      lit "success" := VBool true;
      lit "data" := VList (VDict <$> g_SITES st);
      lit "timestamp" := VStr (isoformat (clock env)) ]}))
| answer_get_site_found (site_id : Z) (s : gmap str val) :
    s ∈ g_SITES st →
    answer env st (EP_get_site site_id) (jsonify (VDict {[
      lit "success" := VBool true;
      lit "data" := VDict s ]}))
| answer_get_site_missing (site_id : Z) :
    answer env st (EP_get_site site_id)
      (error_envelope (lit "Site not found") 404)
| answer_proxy_url_required :
    answer env st EP_proxy_request
      (error_envelope (lit "URL parameter is required") 400)
| answer_proxy_fetched (response : upstream) :
    answer env st EP_proxy_request (proxy_envelope response)
| answer_proxy_failed (description : str) :
    answer env st EP_proxy_request (error_envelope description 500)
| answer_health_check :
    answer env st EP_health_check (jsonify (VDict {[
      lit "status" := VStr (lit "healthy");
      lit "timestamp" := VStr (isoformat (clock env));
      lit "service" := VStr (lit "Portfolio Dashboard API") ]})).

(** ** The response on the wire *)

(** The body bytes are a function of the payload: [jsonify] ends with
    [json.dumps], whose output depends on its argument only. *)
Definition wire_body (dumps : val → str) (r : Response) : str :=
  match body r with
  | Json v => dumps v
  | Html page => page
  end.

(** A member of a JSON object body, [None] when the body is not an
    object or lacks the key. *)
Definition field (key : string) (r : Response) : option val :=
  match body r with
  | Json (VDict d) => d !! lit key
  | _ => None
  end.

(** UTF-8 length of a [str], to compare a count of code points with a
    count of bytes. *)
Definition utf8_width (c : char) : nat :=
  if (c <? 128)%N then 1
  else if (c <? 2048)%N then 2
  else if (c <? 65536)%N then 3
  else 4.

Definition utf8_length (s : str) : nat := sum_list (utf8_width <$> s).

(** ** A sample environment *)

(** A clock reading, an upstream that answers 503, one whose body is
    1200 two-byte characters, and a network where every other target
    is unreachable; no template is installed. *)
Definition sample_clock : datetime :=
  {| year := 2025; month := 12; day := 23;
     hour := 22; minute := 20; second := 0; microsecond := 0 |}.

Definition sample_unavailable : upstream :=
  {| status_code := 503;
     text := lit "Service Unavailable";
     headers := {[ lit "Content-Type" := lit "text/plain" ]} |}.

Definition sample_long : upstream :=
  {| status_code := 200;
     text := replicate 1200 233%N;
     headers := ∅ |}.

Definition sample_env : Env :=
  {| clock := sample_clock;
     network := λ url _,
       if decide (url = lit "http://down.example/") then Ok sample_unavailable
       else if decide (url = lit "http://long.example/") then Ok sample_long
       else Raise (RequestException (lit "Connection refused"));
     templates := λ name _, Raise (TemplateNotFound name) |}.

(** An interpreter with the default limit of 4300 digits that knows,
    of the decimal digits of Unicode, five blocks: ASCII,
    Arabic-Indic (U+0660), Extended Arabic-Indic (U+06F0), Devanagari
    (U+0966) and Fullwidth (U+FF10). *)
Definition sample_runtime : Runtime :=
  {| unicode_decimal := λ c,
       (λ zero, (c - zero)%N)
         <$> find (λ zero, (zero <=? c)%N && (c <? zero + 10)%N)
                  [48; 1632; 1776; 2406; 65296]%N;
     int_max_str_digits := 4300 |}.

(** * Properties *)

(** ** Timestamps *)

Example isoformat_whole_second :
  isoformat {| year := 2025; month := 12; day := 23; hour := 22; minute := 20;
               second := 0; microsecond := 0 |} = lit "2025-12-23T22:20:00".
Proof. reflexivity. Qed.

Example isoformat_fraction :
  isoformat {| year := 2025; month := 1; day := 2; hour := 3; minute := 4;
               second := 5; microsecond := 6789 |} = lit "2025-01-02T03:04:05.006789".
Proof. reflexivity. Qed.

Lemma is_digit_digit_char (n : N) : is_digit (digit_char n) = true.
Proof.
  unfold is_digit, digit_char.
  pose proof (N.mod_upper_bound n 10 ltac:(discriminate)) as Hlt.
  generalize dependent (n mod 10)%N; intros r Hlt.
  apply andb_true_iff; split; apply N.leb_le; lia.
Qed.

Lemma matches_digit (n : N) shape s :
  matches_shape (None :: shape) (digit_char n :: s) = matches_shape shape s.
Proof. cbn [matches_shape]. by rewrite is_digit_digit_char. Qed.

Lemma matches_separator (k : N) shape s :
  matches_shape (Some k :: shape) (k :: s) = matches_shape shape s.
Proof. cbn [matches_shape]. by rewrite N.eqb_refl. Qed.

Ltac eval_closed c := let x := fresh in set (x := c); vm_compute in x; subst x.

(** Whatever the clock reads, [isoformat] prints one of the two
    ISO-8601 shapes. *)
Lemma isoformat_is_iso8601 (t : datetime) : is_iso8601 (isoformat t) = true.
Proof.
  unfold is_iso8601, isoformat.
  eval_closed (shape_of "dddd-dd-ddTdd:dd:dd").
  eval_closed (shape_of "dddd-dd-ddTdd:dd:dd.dddddd").
  eval_closed (lit "-"); eval_closed (lit ":");
    eval_closed (lit "T"); eval_closed (lit ".").
  destruct (microsecond t =? 0)%N; cbn [zero_padded app];
    repeat (rewrite matches_digit || rewrite matches_separator);
    reflexivity.
Qed.

(** ** The catalog listing and the health check *)

(** C6: [get_sites] (GET /api/sites) never fails: for every catalog,
    the empty one included, it answers 200 with
    [{success: true, data: [Site...], timestamp}], where [data] is the
    whole catalog in its stored order and [timestamp] is the ISO-8601
    print of the clock. *)
Theorem get_sites_lists_catalog (py : Runtime) (env : Env) (st : State) (a : list (str * str)) :
  let listing := jsonify (VDict {[
    lit "success" := VBool true;
    lit "data" := VList (VDict <$> g_SITES st);
    lit "timestamp" := VStr (isoformat (clock env)) ]}) in
  get_sites env st = (Ok listing, st)
  ∧ serve py env {| path := lit "/api/sites"; args := a |} st = (listing, st)
  ∧ status listing = 200
  ∧ field "data" listing = Some (VList (VDict <$> g_SITES st))
  ∧ length (VDict <$> g_SITES st) = length (g_SITES st)
  ∧ (∀ i : nat, (VDict <$> g_SITES st) !! i = VDict <$> (g_SITES st !! i))
  ∧ is_iso8601 (isoformat (clock env)) = true.
Proof.
  intros listing. repeat split.
  - apply length_fmap.
  - intros i. apply list_lookup_fmap.
  - apply isoformat_is_iso8601.
Qed.

(** C8: every GET /api/health answers 200 with
    [{status: "healthy", timestamp: <ISO-8601>, service: "Portfolio
    Dashboard API"}], whatever the query string, the catalog, the
    clock or the network. *)
Theorem health_check_always_healthy (py : Runtime) (env : Env) (st : State) (a : list (str * str)) :
  let healthy := jsonify (VDict {[
    lit "status" := VStr (lit "healthy");
    lit "timestamp" := VStr (isoformat (clock env));
    lit "service" := VStr (lit "Portfolio Dashboard API") ]}) in
  health_check env st = (Ok healthy, st)
  ∧ serve py env {| path := lit "/api/health"; args := a |} st = (healthy, st)
  ∧ status healthy = 200
  ∧ field "status" healthy = Some (VStr (lit "healthy"))
  ∧ is_iso8601 (isoformat (clock env)) = true.
Proof.
  intros healthy. repeat split. apply isoformat_is_iso8601.
Qed.

(** ** The fetch proxy *)

Lemma proxy_request_fetch (env : Env) (st : State) (request : Request) (url : str) :
  args_get (lit "url") (args request) = Some url →
  url ≠ [] →
  proxy_request request env st =
    try_except_RequestException
      (response ← requests_get url 10;
       mret (jsonify (VDict {[
         lit "success" := VBool true;
         lit "status_code" := VInt (status_code response);
         lit "content" := VStr (slice_to 1000 (text response));
         lit "headers" := VDict (VStr <$> headers response) ]})))
      (λ e,
       mret (with_status (jsonify (VDict {[
         lit "success" := VBool false;
         lit "error" := VStr e ]})) 500)) env st.
Proof.
  intros Harg Hne. unfold proxy_request. rewrite Harg.
  destruct url as [|c url]; [done|]. reflexivity.
Qed.

Lemma url_map_proxy (py : Runtime) : url_map py (lit "/api/proxy") = Some EP_proxy_request.
Proof. reflexivity. Qed.

(** C3: when the [url] parameter is absent or empty, the proxy answers
    400 [{success: false, error: "URL parameter is required"}] and
    leaves the state as it was: no outbound GET is logged, and the
    answer does not depend on the network. *)
Theorem proxy_requires_url (py : Runtime) (env : Env) (st : State) (a : list (str * str)) :
  args_get (lit "url") a = None ∨ args_get (lit "url") a = Some [] →
  let request := {| path := lit "/api/proxy"; args := a |} in
  let url_required := with_status (jsonify (VDict {[
    lit "success" := VBool false;
    lit "error" := VStr (lit "URL parameter is required") ]})) 400 in
  proxy_request request env st = (Ok url_required, st)
  ∧ serve py env request st = (url_required, st)
  ∧ outbound (snd (serve py env request st)) = outbound st
  ∧ status url_required = 400.
Proof.
  intros Harg request url_required.
  assert (Hview : proxy_request request env st = (Ok url_required, st)).
  { unfold proxy_request. cbn [args request].
    destruct Harg as [-> | ->]; reflexivity. }
  assert (Hserve : serve py env request st = (url_required, st)).
  { unfold serve. cbn [path request]. rewrite url_map_proxy.
    cbn [view]. by rewrite Hview. }
  by rewrite Hserve.
Qed.

Lemma proxy_requires_url_witness :
  serve sample_runtime sample_env {| path := lit "/api/proxy"; args := [] |} startup
  = (with_status (jsonify (VDict {[
       lit "success" := VBool false;
       lit "error" := VStr (lit "URL parameter is required") ]})) 400, startup)
  ∧ serve sample_runtime sample_env {| path := lit "/api/proxy";
                        args := [(lit "url", []); (lit "url", lit "http://down.example/")] |}
      startup
  = (with_status (jsonify (VDict {[
       lit "success" := VBool false;
       lit "error" := VStr (lit "URL parameter is required") ]})) 400, startup).
Proof.
  split.
  - apply (proxy_requires_url sample_runtime sample_env startup []). left. reflexivity.
  - apply (proxy_requires_url sample_runtime sample_env startup
             [(lit "url", []); (lit "url", lit "http://down.example/")]).
    right. reflexivity.
Defined.

(** The state after one outbound GET to [url] with the 10 s timeout. *)
Lemma requests_get_logged (env : Env) (st : State) (url : str) :
  requests_get url 10 env st =
    (network env url 10,
     {| g_SITES := g_SITES st; outbound := outbound st ++ [(url, 10)] |}).
Proof. reflexivity. Qed.

(** A completed GET: the view builds the success envelope from the
    upstream response, and one GET to [url] has been logged. *)
Lemma proxy_request_completed (py : Runtime)
    (env : Env) (st : State) (a : list (str * str)) (url : str) (response : upstream) :
  args_get (lit "url") a = Some url →
  url ≠ [] →
  network env url 10 = Ok response →
  let request := {| path := lit "/api/proxy"; args := a |} in
  let result := jsonify (VDict {[
    lit "success" := VBool true;
    lit "status_code" := VInt (status_code response);
    lit "content" := VStr (slice_to 1000 (text response));
    lit "headers" := VDict (VStr <$> headers response) ]}) in
  let st' := {| g_SITES := g_SITES st; outbound := outbound st ++ [(url, 10)] |} in
  proxy_request request env st = (Ok result, st')
  ∧ serve py env request st = (result, st').
Proof.
  intros Harg Hne Hnet request result st'.
  assert (Hview : proxy_request request env st = (Ok result, st')).
  { rewrite (proxy_request_fetch env st request url Harg Hne).
    unfold try_except_RequestException, mbind, M_bind.
    rewrite requests_get_logged, Hnet. reflexivity. }
  split; [exact Hview|].
  unfold serve. cbn [path request]. rewrite url_map_proxy.
  cbn [view]. by rewrite Hview.
Qed.

(** C4: once the outbound GET completes, whatever status the upstream
    sent (4xx and 5xx included), the proxy answers 200 with
    [success: true] and [status_code] equal to the upstream status;
    exactly one GET, with the 10 s timeout, was issued. *)
Theorem proxy_reports_upstream_status (py : Runtime)
    (env : Env) (st : State) (a : list (str * str)) (url : str) (response : upstream) :
  args_get (lit "url") a = Some url →
  url ≠ [] →
  network env url 10 = Ok response →
  let request := {| path := lit "/api/proxy"; args := a |} in
  let result := jsonify (VDict {[
    lit "success" := VBool true;
    lit "status_code" := VInt (status_code response);
    lit "content" := VStr (slice_to 1000 (text response));
    lit "headers" := VDict (VStr <$> headers response) ]}) in
  let st' := {| g_SITES := g_SITES st; outbound := outbound st ++ [(url, 10)] |} in
  proxy_request request env st = (Ok result, st')
  ∧ serve py env request st = (result, st')
  ∧ status result = 200
  ∧ field "success" result = Some (VBool true)
  ∧ field "status_code" result = Some (VInt (status_code response)).
Proof.
  intros Harg Hne Hnet request result st'.
  destruct (proxy_request_completed py env st a url response Harg Hne Hnet)
    as [Hview Hserve].
  repeat split; assumption.
Qed.

Lemma proxy_reports_upstream_status_witness :
  let r := fst (serve sample_runtime sample_env
                  {| path := lit "/api/proxy";
                     args := [(lit "url", lit "http://down.example/")] |} startup) in
  status r = 200
  ∧ field "success" r = Some (VBool true)
  ∧ field "status_code" r = Some (VInt 503).
Proof.
  destruct (proxy_reports_upstream_status sample_runtime sample_env startup
              [(lit "url", lit "http://down.example/")]
              (lit "http://down.example/") sample_unavailable)
    as (_ & Hserve & Hstatus & Hsuccess & Hcode);
    [reflexivity | discriminate | reflexivity |].
  cbv zeta. rewrite Hserve. cbn [fst]. auto.
Defined.




(** C2: the [content] the proxy returns is the first 1000 characters
    (code points) of the decoded body: exactly 1000 of them when the
    body is longer, the whole body when it has 1000 or fewer.  No
    count of bytes enters. *)
Theorem proxy_content_truncated (py : Runtime)
    (env : Env) (st : State) (a : list (str * str)) (url : str) (response : upstream) :
  args_get (lit "url") a = Some url →
  url ≠ [] →
  network env url 10 = Ok response →
  let request := {| path := lit "/api/proxy"; args := a |} in
  ∃ content : str,
    field "content" (fst (serve py env request st)) = Some (VStr content)
    ∧ content = take 1000 (text response)
    ∧ (∀ i : nat, (i < 1000)%nat → content !! i = text response !! i)
    ∧ length content = (1000 `min` length (text response))%nat
    ∧ ((1000 < length (text response))%nat →
         length content = 1000%nat ∧ content ++ drop 1000 (text response) = text response)
    ∧ ((length (text response) ≤ 1000)%nat → content = text response).
Proof.
  intros Harg Hne Hnet request.
  destruct (proxy_request_completed py env st a url response Harg Hne Hnet)
    as [_ Hserve].
  exists (take 1000 (text response)). fold request in Hserve. rewrite Hserve.
  split; [reflexivity|]. split; [reflexivity|].
  split; [intros i Hi; by apply lookup_take_lt|].
  split; [apply length_take|].
  split.
  - intros Hlong. split; [rewrite length_take; lia | apply take_drop].
  - intros Hshort. by apply take_ge.
Qed.

Lemma proxy_content_truncated_witness :
  ∃ content : str,
    field "content"
      (fst (serve sample_runtime sample_env
              {| path := lit "/api/proxy";
                 args := [(lit "url", lit "http://long.example/")] |} startup))
      = Some (VStr content)
    ∧ content = replicate 1000 233%N.
Proof.
  destruct (proxy_content_truncated sample_runtime sample_env startup
              [(lit "url", lit "http://long.example/")]
              (lit "http://long.example/") sample_long)
    as (content & Hfield & Hcontent & _);
    [reflexivity | discriminate | reflexivity |].
  exists content. split; [exact Hfield|].
  rewrite Hcontent. reflexivity.
Defined.

(** The 1000 characters kept from [sample_long] are 2000 bytes of
    UTF-8: the cut is by characters. *)
Example truncation_counts_characters :
  length (slice_to 1000 (text sample_long)) = 1000%nat
  ∧ utf8_length (slice_to 1000 (text sample_long)) = 2000%nat.
Proof. split; vm_compute; reflexivity. Qed.

(** ** Routing *)

Lemma strip_prefix_app (prefix s : str) : strip_prefix prefix (prefix ++ s) = Some s.
Proof.
  induction prefix as [|c prefix IH]; [by destruct s|].
  cbn [app strip_prefix]. by rewrite N.eqb_refl.
Qed.

Lemma serve_response (py : Runtime) (env : Env) (request : Request) (st : State) :
  fst (serve py env request st) =
    match url_map py (path request) with
    | None => not_found
    | Some ep =>
        match fst (view ep request env st) with
        | Ok r => r
        | Raise _ => internal_error
        end
    end.
Proof.
  unfold serve. destruct (url_map py (path request)) as [ep|]; [|reflexivity].
  by destruct (view ep request env st) as [[r|e] st'].
Qed.

(** Under [/api/sites/] the converter alone decides: a segment it
    accepts goes to [get_site] with the converted integer, any other
    segment matches no rule. *)
Lemma url_map_site_segment (py : Runtime) (segment : str) :
  url_map py (lit "/api/sites/" ++ segment) = EP_get_site <$> int_converter py segment.
Proof.
  unfold url_map. rewrite strip_prefix_app.
  eval_closed (lit "/api/sites/"); eval_closed (lit "/api/sites");
    eval_closed (lit "/api/proxy"); eval_closed (lit "/api/health");
    eval_closed (lit "/").
  cbn [app].
  repeat (case_decide; [discriminate|]).
  cbn [mbind option_bind].
  destruct (int_converter py segment); [reflexivity|].
  cbn [fmap option_fmap option_map].
  by repeat (case_decide; [discriminate|]).
Qed.

Example route_leading_zeros : url_map sample_runtime (lit "/api/sites/007") = Some (EP_get_site 7).
Proof. reflexivity. Qed.

Example route_negative : url_map sample_runtime (lit "/api/sites/-1") = None.
Proof. reflexivity. Qed.

Example route_trailing_slash : url_map sample_runtime (lit "/api/sites/") = None.
Proof. reflexivity. Qed.

Lemma serve_get_site (py : Runtime) (env : Env) (st : State) (segment : str) (a : list (str * str))
    (site_id : Z) (r : Response) :
  int_converter py segment = Some site_id →
  get_site site_id env st = (Ok r, st) →
  serve py env {| path := lit "/api/sites/" ++ segment; args := a |} st = (r, st).
Proof.
  intros Hconv Hview. unfold serve. cbn [path].
  rewrite url_map_site_segment, Hconv. cbn. by rewrite Hview.
Qed.

(** ** Lookup by id *)

Lemma site_id_of_lookup (s : gmap str val) (n : Z) :
  site_id_of s = Some n ↔ s !! lit "id" = Some (VInt n).
Proof.
  unfold site_id_of.
  destruct (s !! lit "id") as [[]|]; split; congruence.
Qed.

(** A dict with a key is not empty, so it is truthy. *)
Lemma truthy_dict_with_key (s : gmap str val) (k : str) :
  is_Some (s !! k) → truthy (VDict s) = true.
Proof.
  intros [v Hv]. cbn [truthy].
  destruct (size s) as [|n] eqn:Hsize; [|reflexivity].
  apply map_size_empty_inv in Hsize. subst s.
  by rewrite lookup_empty in Hv.
Qed.

(** Scanning does not touch the state. *)
Lemma next_with_id_state (site_id : Z) (sites : list (gmap str val)) env st :
  snd (next_with_id site_id sites env st) = st.
Proof.
  induction sites as [|s rest IH]; cbn [next_with_id]; [reflexivity|].
  destruct (s !! lit "id") as [v|]; [|reflexivity].
  destruct (eq_int v site_id); [reflexivity | exact IH].
Qed.

(** In a well-formed catalog the scan stops at the record that
    carries the id. *)
Lemma next_with_id_found (site_id : Z) (sites : list (gmap str val)) env st s :
  catalog_ok sites →
  s ∈ sites →
  site_id_of s = Some site_id →
  next_with_id site_id sites env st = (Ok (VDict s), st).
Proof.
  intros [Hint Hnodup] Hin Hid.
  induction sites as [|s0 rest IH]; [by apply elem_of_nil in Hin|].
  apply Forall_cons in Hint as [[n Hn] Hint].
  rewrite fmap_cons in Hnodup. apply NoDup_cons in Hnodup as [Hfresh Hnodup].
  cbn [next_with_id].
  pose proof Hn as Hlook. apply site_id_of_lookup in Hlook. rewrite Hlook.
  cbn [eq_int].
  apply elem_of_cons in Hin as [-> | Hin].
  - rewrite Hid in Hn. simplify_eq. by rewrite Z.eqb_refl.
  - destruct (Z.eqb_spec n site_id) as [-> | Hne]; [|by apply IH].
    exfalso. apply Hfresh. rewrite Hn, <- Hid. by apply list_elem_of_fmap_2.
Qed.

(** When no record carries the id the scan reaches the end and
    yields [None]. *)
Lemma next_with_id_absent (site_id : Z) (sites : list (gmap str val)) env st :
  Forall (λ s, is_Some (site_id_of s)) sites →
  (∀ s, s ∈ sites → site_id_of s ≠ Some site_id) →
  next_with_id site_id sites env st = (Ok VNone, st).
Proof.
  intros Hint Habsent.
  induction sites as [|s0 rest IH]; [reflexivity|].
  apply Forall_cons in Hint as [[n Hn] Hint].
  cbn [next_with_id].
  pose proof Hn as Hlook. apply site_id_of_lookup in Hlook. rewrite Hlook.
  cbn [eq_int].
  destruct (Z.eqb_spec n site_id) as [-> | Hne].
  - exfalso. apply (Habsent s0); [apply elem_of_cons; by left | done].
  - apply IH; [done|]. intros s Hs. apply Habsent. apply elem_of_cons. by right.
Qed.

(** In a well-formed catalog, a record is determined by its id. *)
Lemma catalog_ok_unique (sites : list (gmap str val)) (s s' : gmap str val) (n : Z) :
  catalog_ok sites →
  s ∈ sites → s' ∈ sites →
  site_id_of s = Some n → site_id_of s' = Some n →
  s = s'.
Proof.
  intros [_ Hnodup] Hs Hs' Hn Hn'.
  apply list_elem_of_lookup in Hs as [i Hi].
  apply list_elem_of_lookup in Hs' as [j Hj].
  assert (i = j) as ->; [|congruence].
  apply (NoDup_lookup _ i j (Some n) Hnodup);
    rewrite list_lookup_fmap; [rewrite Hi | rewrite Hj]; cbn; congruence.
Qed.

Lemma SITES_ok : catalog_ok SITES.
Proof.
  split.
  - repeat constructor; by eexists.
  - apply (bool_decide_unpack _). vm_compute. exact I.
Qed.

(** C1: on a catalog whose records have pairwise distinct integer ids,
    [get_site site_id] answers 200 [{success: true, data: s}] with the
    one record [s] whose ['id'] is [site_id] when there is one, and 404
    [{success: false, error: "Site not found"}] when there is none;
    GET /api/sites/{segment} answers the same for every segment the
    converter turns into [site_id]. *)
Theorem get_site_lookup (py : Runtime) (env : Env) (st : State) (site_id : Z) :
  catalog_ok (g_SITES st) →
  let found (s : gmap str val) :=
    jsonify (VDict {[ lit "success" := VBool true; lit "data" := VDict s ]}) in
  let missing :=
    with_status (jsonify (VDict {[
      lit "success" := VBool false;
      lit "error" := VStr (lit "Site not found") ]})) 404 in
  (∀ s, s ∈ g_SITES st → s !! lit "id" = Some (VInt site_id) →
     get_site site_id env st = (Ok (found s), st)
     ∧ status (found s) = 200
     ∧ (∀ s', s' ∈ g_SITES st → s' !! lit "id" = Some (VInt site_id) → s' = s)
     ∧ (∀ segment a, int_converter py segment = Some site_id →
          serve py env {| path := lit "/api/sites/" ++ segment; args := a |} st
          = (found s, st)))
  ∧ ((∀ s, s ∈ g_SITES st → s !! lit "id" ≠ Some (VInt site_id)) →
     get_site site_id env st = (Ok missing, st)
     ∧ status missing = 404
     ∧ (∀ segment a, int_converter py segment = Some site_id →
          serve py env {| path := lit "/api/sites/" ++ segment; args := a |} st
          = (missing, st))).
Proof.
  intros Hok found missing. split.
  - intros s Hin Hid.
    assert (Hview : get_site site_id env st = (Ok (found s), st)).
    { unfold get_site, mbind, M_bind, read_SITES.
      rewrite (next_with_id_found site_id (g_SITES st) env st s Hok Hin);
        [|by apply site_id_of_lookup].
      rewrite (truthy_dict_with_key s (lit "id")); [reflexivity | by eexists]. }
    split; [exact Hview|]. split; [reflexivity|]. split.
    + intros s' Hin' Hid'.
      apply (catalog_ok_unique (g_SITES st) s' s site_id Hok Hin' Hin);
        by apply site_id_of_lookup.
    + intros segment a Hconv. by apply serve_get_site with site_id.
  - intros Habsent.
    assert (Hview : get_site site_id env st = (Ok missing, st)).
    { unfold get_site, mbind, M_bind, read_SITES.
      rewrite next_with_id_absent; [reflexivity | apply Hok |].
      intros s Hin Hid. apply (Habsent s Hin). by apply site_id_of_lookup. }
    split; [exact Hview|]. split; [reflexivity|].
    intros segment a Hconv. by apply serve_get_site with site_id.
Qed.

Lemma get_site_lookup_witness :
  (∃ s, s ∈ SITES
        ∧ s !! lit "title" = Some (VStr (lit "Video Demo"))
        ∧ serve sample_runtime sample_env {| path := lit "/api/sites/2"; args := [] |} startup =
            (jsonify (VDict {[ lit "success" := VBool true;
                               lit "data" := VDict s ]}), startup))
  ∧ serve sample_runtime sample_env {| path := lit "/api/sites/999"; args := [] |} startup =
      (with_status (jsonify (VDict {[
         lit "success" := VBool false;
         lit "error" := VStr (lit "Site not found") ]})) 404, startup).
Proof.
  split.
  - destruct (SITES !! 1%nat) as [s|] eqn:Hs; [|discriminate].
    exists s.
    assert (Hin : s ∈ SITES) by (apply list_elem_of_lookup; by exists 1%nat).
    injection Hs as <-.
    split; [exact Hin|]. split; [reflexivity|].
    apply (get_site_lookup sample_runtime sample_env startup 2 SITES_ok); [exact Hin | reflexivity..].
  - apply (get_site_lookup sample_runtime sample_env startup 999 SITES_ok); [|reflexivity].
    intros s Hin.
    repeat (apply elem_of_cons in Hin as [-> | Hin]; [discriminate|]).
    by apply elem_of_nil in Hin.
Defined.

(** ** Paths whose id is not an integer *)

Lemma sample_runtime_ok : runtime_ok sample_runtime.
Proof.
  intros c Hc. unfold sample_runtime, is_digit. cbn [unicode_decimal find].
  repeat (match goal with
          | |- context [N.leb ?x ?y] => destruct (N.leb_spec x y)
          | |- context [N.ltb ?x ?y] => destruct (N.ltb_spec x y)
          end; cbn [andb]; try lia);
    reflexivity.
Qed.

(** An empty segment, or one with a character that is not a decimal
    digit, is refused by the converter. *)
Lemma int_converter_rejects (py : Runtime) (segment : str) :
  segment = [] ∨ (∃ c, c ∈ segment ∧ unicode_decimal py c = None) →
  int_converter py segment = None.
Proof.
  intros [-> | (c & Hc & Hnone)]; [reflexivity|].
  unfold int_converter, matches_digits.
  match goal with
  | |- context [forallb ?f segment] =>
      replace (forallb f segment) with false; [by rewrite andb_false_r|]
  end.
  symmetry. apply not_true_is_false. intros Hall.
  rewrite forallb_forall in Hall.
  apply list_elem_of_In, Hall in Hc. by rewrite Hnone in Hc.
Qed.

(** C9 as it is written does not hold: the segment U+0669
    (ARABIC-INDIC DIGIT NINE) is not a string of the digits 0-9, yet
    [\d+] matches it and [int] converts it to 9, so the path reaches
    [get_site] and the answer is the lookup's "Site not found", not
    the 404 handler's "Endpoint not found". *)
Lemma non_integer_id_counterexample :
  let segment : str := [1641%N] in
  let request := {| path := lit "/api/sites/" ++ segment; args := [] |} in
  (∃ c, c ∈ segment ∧ ((c < 48)%N ∨ (57 < c)%N))
  ∧ url_map sample_runtime (path request) = Some (EP_get_site 9)
  ∧ serve sample_runtime sample_env request startup
    = (with_status (jsonify (VDict {[
         lit "success" := VBool false;
         lit "error" := VStr (lit "Site not found") ]})) 404, startup)
  ∧ fst (serve sample_runtime sample_env request startup) ≠ not_found.
Proof.
  intros segment request. split; [|split; [|split]].
  - exists 1641%N. split; [left | right; reflexivity].
  - reflexivity.
  - reflexivity.
  - vm_compute. discriminate.
Qed.

(** C9, amended: a path [/api/sites/{segment}] whose segment is empty
    or has a character that is not a decimal digit of any script
    ([abc], [1.5], [-1], ...) matches no rule: the converter refuses
    it, [get_site] is not called, and the answer is the 404 handler's
    [{success: false, error: "Endpoint not found"}], not the "Site
    not found" of a lookup miss.  The segment is what follows the
    last ['/'] of the path. *)
Theorem non_integer_id_is_not_routed (py : Runtime)
    (env : Env) (st : State) (a : list (str * str)) (segment : str) :
  47%N ∉ segment →
  segment = [] ∨ (∃ c, c ∈ segment ∧ unicode_decimal py c = None) →
  let request := {| path := lit "/api/sites/" ++ segment; args := a |} in
  int_converter py segment = None
  ∧ url_map py (path request) = None
  ∧ serve py env request st = (not_found, st)
  ∧ status not_found = 404
  ∧ body not_found = Json (VDict {[ lit "success" := VBool false;
                                    lit "error" := VStr (lit "Endpoint not found") ]})
  ∧ field "error" (fst (serve py env request st)) ≠ Some (VStr (lit "Site not found")).
Proof.
  intros _ Hbad request.
  pose proof (int_converter_rejects py segment Hbad) as Hconv.
  assert (Hmap : url_map py (path request) = None).
  { cbn [path request]. by rewrite url_map_site_segment, Hconv. }
  assert (Hserve : serve py env request st = (not_found, st)).
  { unfold serve. by rewrite Hmap. }
  repeat split; try done.
  rewrite Hserve. cbn [fst]. vm_compute. discriminate.
Qed.

Lemma non_integer_id_is_not_routed_witness :
  serve sample_runtime sample_env {| path := lit "/api/sites/abc"; args := [] |} startup
    = (not_found, startup)
  ∧ serve sample_runtime sample_env {| path := lit "/api/sites/1.5"; args := [] |} startup
    = (not_found, startup).
Proof.
  split.
  - apply (non_integer_id_is_not_routed sample_runtime sample_env startup [] (lit "abc")).
    + by apply (bool_decide_unpack _).
    + right. exists 97%N. split; [vm_compute; left | reflexivity].
  - apply (non_integer_id_is_not_routed sample_runtime sample_env startup [] (lit "1.5")).
    + by apply (bool_decide_unpack _).
    + right. exists 46%N. split; [vm_compute; right; left | reflexivity].
Defined.

(** ** The catalog is read-only *)

Lemma get_site_state (site_id : Z) env st : snd (get_site site_id env st) = st.
Proof.
  unfold get_site, mbind, M_bind, read_SITES.
  pose proof (next_with_id_state site_id (g_SITES st) env st) as Hst.
  destruct (next_with_id site_id (g_SITES st) env st) as [[site|e] st'];
    cbn [snd] in Hst; subst st'; [|reflexivity].
  by destruct (truthy site).
Qed.






(** ** The lookup is a function of the catalog and the id *)

Lemma next_with_id_pure (site_id : Z) (sites : list (gmap str val)) env1 st1 env2 st2 :
  fst (next_with_id site_id sites env1 st1) = fst (next_with_id site_id sites env2 st2).
Proof.
  induction sites as [|s rest IH]; cbn [next_with_id]; [reflexivity|].
  destruct (s !! lit "id") as [v|]; [|reflexivity].
  destruct (eq_int v site_id); [reflexivity | exact IH].
Qed.

Lemma get_site_pure (site_id : Z) env1 st1 env2 st2 :
  g_SITES st1 = g_SITES st2 →
  fst (get_site site_id env1 st1) = fst (get_site site_id env2 st2).
Proof.
  intros Hsame. unfold get_site, mbind, M_bind, read_SITES. rewrite Hsame.
  pose proof (next_with_id_pure site_id (g_SITES st2) env1 st1 env2 st2) as Hnext.
  destruct (next_with_id site_id (g_SITES st2) env1 st1) as [[site1|e1] st1'],
           (next_with_id site_id (g_SITES st2) env2 st2) as [[site2|e2] st2'];
    cbn [fst] in Hnext; simplify_eq; [|reflexivity].
  by destruct (truthy site2).
Qed.

(** The envelope [get_site] builds has two members, and neither is a
    timestamp. *)
Lemma get_site_envelope (site_id : Z) env st (r : Response) :
  fst (get_site site_id env st) = Ok r →
  ∃ d : gmap str val,
    body r = Json (VDict d)
    ∧ (dom d = {[ lit "success"; lit "data" ]} ∨ dom d = {[ lit "success"; lit "error" ]})
    ∧ d !! lit "timestamp" = None.
Proof.
  unfold get_site, mbind, M_bind, read_SITES.
  destruct (next_with_id site_id (g_SITES st) env st) as [[site|e] st'];
    [|discriminate].
  destruct (truthy site); cbn [fst mret M_ret]; intros [= <-];
    eexists; (split; [reflexivity|]); split.
  - left. by rewrite dom_insert_L, dom_singleton_L.
  - reflexivity.
  - right. by rewrite dom_insert_L, dom_singleton_L.
  - reflexivity.
Qed.

(** C10: [get_site] is deterministic and carries no per-request
    field.  Two calls with the same id on the same catalog, under any
    two clocks and networks, have the same outcome, hence the same
    status and the same body bytes whatever serialiser [jsonify] uses;
    the same holds for two requests of one [/api/sites/{segment}]
    path; and the envelope's keys are [success] with [data] or
    [error], never [timestamp]. *)
Theorem get_site_is_deterministic (py : Runtime)
    (dumps : val → str) (env1 env2 : Env) (st1 st2 : State) (site_id : Z) :
  g_SITES st1 = g_SITES st2 →
  fst (get_site site_id env1 st1) = fst (get_site site_id env2 st2)
  ∧ (∀ r1 r2, fst (get_site site_id env1 st1) = Ok r1 →
              fst (get_site site_id env2 st2) = Ok r2 →
              status r1 = status r2 ∧ wire_body dumps r1 = wire_body dumps r2)
  ∧ (∀ segment a1 a2,
       let r1 := fst (serve py env1 {| path := lit "/api/sites/" ++ segment; args := a1 |} st1) in
       let r2 := fst (serve py env2 {| path := lit "/api/sites/" ++ segment; args := a2 |} st2) in
       status r1 = status r2 ∧ wire_body dumps r1 = wire_body dumps r2)
  ∧ (∀ r, fst (get_site site_id env1 st1) = Ok r →
          ∃ d : gmap str val,
            body r = Json (VDict d)
            ∧ (dom d = {[ lit "success"; lit "data" ]}
               ∨ dom d = {[ lit "success"; lit "error" ]})
            ∧ d !! lit "timestamp" = None).
Proof.
  intros Hsame.
  pose proof (get_site_pure site_id env1 st1 env2 st2 Hsame) as Hpure.
  split; [exact Hpure|]. split; [|split].
  - intros r1 r2 H1 H2. rewrite Hpure, H2 in H1. by simplify_eq.
  - intros segment a1 a2 r1 r2. subst r1 r2.
    rewrite !serve_response. cbn [path].
    rewrite url_map_site_segment.
    destruct (int_converter py segment) as [n|]; cbn; [|done].
    by rewrite (get_site_pure n env1 st1 env2 st2 Hsame).
  - intros r Hr. by apply (get_site_envelope site_id env1 st1).
Qed.

Lemma get_site_is_deterministic_witness :
  let later :=
    {| clock := {| year := 2026; month := 1; day := 1;
                   hour := 0; minute := 0; second := 1; microsecond := 5 |};
       network := λ _ _, Raise (OtherException []);
       templates := λ _ _, Ok [] |} in
  let busy :=
    snd (serve sample_runtime sample_env
           {| path := lit "/api/proxy";
              args := [(lit "url", lit "http://down.example/")] |} startup) in
  outbound busy ≠ outbound startup
  ∧ fst (get_site 3 sample_env startup) = fst (get_site 3 later busy).
Proof.
  intros later busy. split; [discriminate|].
  apply (get_site_is_deterministic sample_runtime (λ _, []) sample_env later startup busy 3).
  reflexivity.
Defined.

(** The listing, by contrast, changes with the clock. *)
Example get_sites_varies_with_clock :
  ∃ env1 env2 : Env,
    fst (get_sites env1 startup) ≠ fst (get_sites env2 startup).
Proof.
  exists sample_env,
    {| clock := {| year := 2026; month := 1; day := 1;
                   hour := 0; minute := 0; second := 1; microsecond := 5 |};
       network := network sample_env;
       templates := templates sample_env |}.
  intros Heq. apply (f_equal (λ o, match o with
                                   | Ok r => field "timestamp" r
                                   | Raise _ => None
                                   end)) in Heq.
  vm_compute in Heq. discriminate.
Qed.

(** ** What falls to the 500 handler *)

(** Only [RequestException] is caught in [proxy_request]; a view that
    raises anything else, such as [home] without its template, is
    answered by [internal_error]. *)
Example home_without_template :
  fst (serve sample_runtime sample_env {| path := lit "/"; args := [] |} startup) = internal_error.
Proof. reflexivity. Qed.

Example proxy_other_exception (py : Runtime) (env : Env) (st : State) (url d : str) :
  url ≠ [] →
  network env url 10 = Raise (OtherException d) →
  fst (serve py env {| path := lit "/api/proxy"; args := [(lit "url", url)] |} st)
  = internal_error.
Proof.
  intros Hne Hnet. rewrite serve_response. cbn [path].
  rewrite url_map_proxy. cbn [view].
  rewrite (proxy_request_fetch env st _ url); [|by cbn; case_decide|done].
  unfold try_except_RequestException, mbind, M_bind.
  by rewrite requests_get_logged, Hnet.
Qed.

(** * Further properties of the handlers *)

(** ** [get_site] on an arbitrary catalog *)

(** The scan, record by record. *)
Lemma next_with_id_cons (site_id : Z) (s : gmap str val) (rest : list (gmap str val)) env st :
  next_with_id site_id (s :: rest) env st =
    match id_test site_id s with
    | None => (Raise (KeyError (lit "id")), st)
    | Some true => (Ok (VDict s), st)
    | Some false => next_with_id site_id rest env st
    end.
Proof.
  cbn [next_with_id]. unfold id_test.
  destruct (s !! lit "id") as [v|]; cbn; [|reflexivity].
  by destruct (eq_int v site_id).
Qed.

(** Records whose id differs are stepped over. *)
Lemma next_with_id_skip (site_id : Z) (pre rest : list (gmap str val)) env st :
  Forall (λ s, id_test site_id s = Some false) pre →
  next_with_id site_id (pre ++ rest) env st = next_with_id site_id rest env st.
Proof.
  induction 1 as [|s pre Hs _ IH]; [reflexivity|].
  rewrite <- app_comm_cons, next_with_id_cons, Hs. exact IH.
Qed.

(** The three ways the scan can end. *)
Lemma next_with_id_cases (site_id : Z) (sites : list (gmap str val)) env st :
  (∃ s, s ∈ sites ∧ id_test site_id s = Some true
        ∧ next_with_id site_id sites env st = (Ok (VDict s), st))
  ∨ (Forall (λ s, id_test site_id s = Some false) sites
     ∧ next_with_id site_id sites env st = (Ok VNone, st))
  ∨ (∃ s, s ∈ sites ∧ s !! lit "id" = None
        ∧ next_with_id site_id sites env st = (Raise (KeyError (lit "id")), st)).
Proof.
  induction sites as [|s rest IH]; [right; left; by split|].
  rewrite next_with_id_cons.
  destruct (id_test site_id s) as [[|]|] eqn:Htest.
  - left. exists s. split; [apply elem_of_cons; by left | done].
  - destruct IH as [(s' & Hin & Ht & Heq) | [[Hall Heq] | (s' & Hin & Hno & Heq)]].
    + left. exists s'. split; [apply elem_of_cons; by right | done].
    + right; left. split; [by constructor | done].
    + right; right. exists s'. split; [apply elem_of_cons; by right | done].
  - right; right. exists s. split; [apply elem_of_cons; by left|].
    split; [|reflexivity]. unfold id_test in Htest.
    by destruct (s !! lit "id").
Qed.

Lemma id_test_has_key (site_id : Z) (s : gmap str val) (b : bool) :
  id_test site_id s = Some b → is_Some (s !! lit "id").
Proof. unfold id_test. destruct (s !! lit "id"); [by eexists | discriminate]. Qed.

(** X1: whatever else the catalog holds, [get_site] returns the first
    record whose ['id'] equals [site_id]: later records with the same
    id, or later records without an ['id'], are never looked at. *)
Theorem get_site_first_match
    (env : Env) (st : State) (site_id : Z)
    (pre post : list (gmap str val)) (s : gmap str val) :
  g_SITES st = pre ++ s :: post →
  Forall (λ s0, id_test site_id s0 = Some false) pre →
  id_test site_id s = Some true →
  get_site site_id env st =
    (Ok (jsonify (VDict {[ lit "success" := VBool true; lit "data" := VDict s ]})), st).
Proof.
  intros Hsites Hpre Hs.
  unfold get_site, mbind, M_bind, read_SITES. rewrite Hsites.
  rewrite (next_with_id_skip site_id pre (s :: post) env st Hpre).
  rewrite next_with_id_cons, Hs.
  rewrite (truthy_dict_with_key s (lit "id")); [reflexivity|].
  by apply id_test_has_key with site_id true.
Qed.

Lemma get_site_first_match_witness :
  let a : gmap str val := {[ lit "id" := VInt 1; lit "title" := VStr (lit "a") ]} in
  let b : gmap str val := {[ lit "id" := VInt 7; lit "title" := VStr (lit "b") ]} in
  let c : gmap str val := {[ lit "id" := VInt 7; lit "title" := VStr (lit "c") ]} in
  let d : gmap str val := {[ lit "title" := VStr (lit "d") ]} in
  let st := {| g_SITES := [a; b; c; d]; outbound := [] |} in
  get_site 7 sample_env st =
    (Ok (jsonify (VDict {[ lit "success" := VBool true; lit "data" := VDict b ]})), st).
Proof.
  intros a b c d st.
  apply (get_site_first_match sample_env st 7 [a] [c; d] b).
  - reflexivity.
  - repeat constructor.
  - reflexivity.
Defined.

(** X2: when the scan meets a record without an ['id'] before any
    match, [s['id']] raises: the view ends in [KeyError('id')] with
    the state untouched, and (exception propagation off) the request
    is answered by the 500 handler. *)
Theorem get_site_key_error (py : Runtime)
    (env : Env) (st : State) (site_id : Z)
    (pre post : list (gmap str val)) (s : gmap str val)
    (segment : str) (a : list (str * str)) :
  g_SITES st = pre ++ s :: post →
  Forall (λ s0, id_test site_id s0 = Some false) pre →
  s !! lit "id" = None →
  int_converter py segment = Some site_id →
  get_site site_id env st = (Raise (KeyError (lit "id")), st)
  ∧ serve py env {| path := lit "/api/sites/" ++ segment; args := a |} st
    = (internal_error, st).
Proof.
  intros Hsites Hpre Hs Hconv.
  assert (Hview : get_site site_id env st = (Raise (KeyError (lit "id")), st)).
  { unfold get_site, mbind, M_bind, read_SITES. rewrite Hsites.
    rewrite (next_with_id_skip site_id pre (s :: post) env st Hpre).
    rewrite next_with_id_cons. unfold id_test. by rewrite Hs. }
  split; [exact Hview|].
  unfold serve. cbn [path]. rewrite url_map_site_segment, Hconv. cbn.
  by rewrite Hview.
Qed.

Lemma get_site_key_error_witness :
  let a : gmap str val := {[ lit "id" := VInt 1; lit "title" := VStr (lit "a") ]} in
  let d : gmap str val := {[ lit "title" := VStr (lit "d") ]} in
  let b : gmap str val := {[ lit "id" := VInt 7; lit "title" := VStr (lit "b") ]} in
  let st := {| g_SITES := [a; d; b]; outbound := [] |} in
  serve sample_runtime sample_env {| path := lit "/api/sites/7"; args := [] |} st = (internal_error, st).
Proof.
  intros a d b st.
  apply (get_site_key_error sample_runtime sample_env st 7 [a] [b] d (lit "7") []).
  - reflexivity.
  - repeat constructor.
  - reflexivity.
  - reflexivity.
Defined.

(** X3: on any catalog at all, [get_site] ends in one of three ways:
    200 with a record of the catalog whose ['id'] equals [site_id];
    404 "Site not found", and then every record has an ['id'] and
    none equals [site_id]; or [KeyError('id')], and then some record
    has no ['id'].  It never returns a record that is not in the
    catalog, and never reports a miss while a record matches. *)
Theorem get_site_answers (env : Env) (st : State) (site_id : Z) :
  (∃ s, s ∈ g_SITES st ∧ id_test site_id s = Some true
        ∧ get_site site_id env st =
            (Ok (jsonify (VDict {[ lit "success" := VBool true;
                                   lit "data" := VDict s ]})), st))
  ∨ (Forall (λ s, id_test site_id s = Some false) (g_SITES st)
     ∧ get_site site_id env st =
         (Ok (with_status (jsonify (VDict {[
                lit "success" := VBool false;
                lit "error" := VStr (lit "Site not found") ]})) 404), st))
  ∨ (∃ s, s ∈ g_SITES st ∧ s !! lit "id" = None
        ∧ get_site site_id env st = (Raise (KeyError (lit "id")), st)).
Proof.
  unfold get_site, mbind, M_bind, read_SITES.
  destruct (next_with_id_cases site_id (g_SITES st) env st)
    as [(s & Hin & Ht & ->) | [[Hall ->] | (s & Hin & Hno & ->)]].
  - left. exists s. split; [done|]. split; [done|].
    rewrite (truthy_dict_with_key s (lit "id")); [reflexivity|].
    by apply id_test_has_key with site_id true.
  - right; left. by split.
  - right; right. by exists s.
Qed.

(** ** The envelope of every response *)

(** How [proxy_request] can end. *)
Lemma proxy_request_cases (env : Env) (st : State) (request : Request) :
  ((args_get (lit "url") (args request) = None
    ∨ args_get (lit "url") (args request) = Some [])
   ∧ proxy_request request env st
     = (Ok (error_envelope (lit "URL parameter is required") 400), st))
  ∨ (∃ url, args_get (lit "url") (args request) = Some url ∧ url ≠ []
      ∧ let st' := {| g_SITES := g_SITES st;
                      outbound := outbound st ++ [(url, 10)] |} in
        (∃ response, network env url 10 = Ok response
           ∧ proxy_request request env st = (Ok (proxy_envelope response), st'))
        ∨ (∃ d, network env url 10 = Raise (RequestException d)
           ∧ proxy_request request env st = (Ok (error_envelope d 500), st'))
        ∨ (∃ e, network env url 10 = Raise e ∧ (∀ d, e ≠ RequestException d)
           ∧ proxy_request request env st = (Raise e, st'))).
Proof.
  destruct (args_get (lit "url") (args request)) as [url|] eqn:Harg.
  - destruct url as [|c url].
    + left. split; [by right|]. unfold proxy_request. by rewrite Harg.
    + right. exists (c :: url). split; [done|]. split; [done|].
      rewrite (proxy_request_fetch env st request (c :: url) Harg); [|done].
      unfold try_except_RequestException, mbind, M_bind.
      rewrite requests_get_logged.
      destruct (network env (c :: url) 10) as [response|e] eqn:Hnet.
      * left. by exists response.
      * right. destruct e as [k|d|n|d].
        -- right. exists (KeyError k). by repeat split.
        -- left. by exists d.
        -- right. exists (TemplateNotFound n). by repeat split.
        -- right. exists (OtherException d). by repeat split.
  - left. split; [by left|]. unfold proxy_request. by rewrite Harg.
Qed.

(** Whatever a view returns is one of its [answer]s. *)
Lemma view_answer (ep : endpoint) (request : Request) (env : Env) (st : State)
    (r : Response) :
  fst (view ep request env st) = Ok r → answer env st ep r.
Proof.
  destruct ep as [| |site_id| |]; cbn [view].
  - unfold home, mbind, M_bind, render_template.
    destruct (templates env (lit "index.html") request) as [page|e]; cbn;
      intros [= <-]. apply answer_home.
  - intros [= <-]. apply answer_get_sites.
  - unfold get_site, mbind, M_bind, read_SITES.
    destruct (next_with_id_cases site_id (g_SITES st) env st)
      as [(s & Hin & Ht & ->) | [[Hall ->] | (s & Hin & Hno & ->)]].
    + rewrite (truthy_dict_with_key s (lit "id"));
        [|by apply id_test_has_key with site_id true].
      intros [= <-]. by apply answer_get_site_found.
    + intros [= <-]. apply answer_get_site_missing.
    + discriminate.
  - destruct (proxy_request_cases env st request)
      as [[_ ->] | (url & _ & _ & [(response & _ & ->) | [(d & _ & ->) | (e & _ & _ & ->)]])];
      cbn; try discriminate; intros [= <-].
    + apply answer_proxy_url_required.
    + apply answer_proxy_fetched.
    + apply answer_proxy_failed.
  - intros [= <-]. apply answer_health_check.
Qed.

(** X4: in every response that a view returns, and in the responses
    of the two error handlers, a [success] member says whether the
    status is 200; the only responses without the member are the 200
    answers of [home] and [health_check]. *)
Theorem success_flag_agrees_with_status
    (ep : endpoint) (request : Request) (env : Env) (st : State) (r : Response) :
  fst (view ep request env st) = Ok r ∨ r = not_found ∨ r = internal_error →
  field "success" r = Some (VBool (status r =? 200))
  ∨ (field "success" r = None
     ∧ status r = 200
     ∧ (ep = EP_home ∨ ep = EP_health_check)).
Proof.
  intros [Hview | [-> | ->]]; [|by left..].
  destruct (view_answer ep request env st r Hview);
    first [ by left | right; split; [reflexivity|]; split; [reflexivity|]; auto ].
Qed.

Lemma success_flag_agrees_with_status_witness :
  field "success" (error_envelope (lit "Site not found") 404) = Some (VBool false)
  ∧ field "success" not_found = Some (VBool false).
Proof.
  split.
  - destruct (success_flag_agrees_with_status (EP_get_site 999)
                {| path := lit "/api/sites/999"; args := [] |} sample_env startup
                (error_envelope (lit "Site not found") 404))
      as [Hflag | [Hnone _]]; [left; reflexivity | exact Hflag | discriminate].
  - destruct (success_flag_agrees_with_status EP_home
                {| path := lit "/nowhere"; args := [] |} sample_env startup not_found)
      as [Hflag | [Hnone _]]; [right; left; reflexivity | exact Hflag | discriminate].
Defined.

(** X5: every response that a view or an error handler returns has
    status 200, 400, 404 or 500; one that is not a 200 is exactly
    the envelope [{success: false, error: <message>}], and a 200 has
    no [error] member. *)
Theorem failures_are_error_envelopes
    (ep : endpoint) (request : Request) (env : Env) (st : State) (r : Response) :
  fst (view ep request env st) = Ok r ∨ r = not_found ∨ r = internal_error →
  (status r = 200 ∧ field "error" r = None)
  ∨ ((status r = 400 ∨ status r = 404 ∨ status r = 500)
     ∧ ∃ message : str,
         body r = Json (VDict {[ lit "success" := VBool false;
                                 lit "error" := VStr message ]})).
Proof.
  intros [Hview | [-> | ->]];
    [|right; split; [cbn; auto | eexists; reflexivity]..].
  destruct (view_answer ep request env st r Hview);
    first [ by left
          | right; split; [cbn; auto | eexists; reflexivity] ].
Qed.

Lemma failures_are_error_envelopes_witness :
  ∃ message : str,
    body (fst (serve sample_runtime sample_env
                 {| path := lit "/api/proxy"; args := [] |} startup))
    = Json (VDict {[ lit "success" := VBool false; lit "error" := VStr message ]}).
Proof.
  destruct (failures_are_error_envelopes EP_proxy_request
              {| path := lit "/api/proxy"; args := [] |} sample_env startup
              (fst (serve sample_runtime sample_env
                      {| path := lit "/api/proxy"; args := [] |} startup)))
    as [[Hstatus _] | [_ Henvelope]];
    [left; reflexivity | discriminate | exact Henvelope].
Defined.

(** ** Outbound calls *)

Lemma url_map_proxy_inv (py : Runtime) (p : str) :
  url_map py p = Some EP_proxy_request → p = lit "/api/proxy".
Proof.
  unfold url_map.
  repeat (case_decide; [discriminate|]).
  destruct (strip_prefix (lit "/api/sites/") p ≫= int_converter py); [discriminate|].
  case_decide; [done|]. case_decide; discriminate.
Qed.

Lemma serve_state (py : Runtime) (env : Env) (request : Request) (st : State) :
  snd (serve py env request st) =
    match url_map py (path request) with
    | None => st
    | Some ep => snd (view ep request env st)
    end.
Proof.
  unfold serve. destruct (url_map py (path request)) as [ep|]; [|reflexivity].
  by destruct (view ep request env st) as [[r|e] st'].
Qed.

(** One request: the state is left as it was, or the request went to
    [/api/proxy] with a non-empty [url] and one GET to that target,
    with the 10 s timeout, was added to the log. *)
Lemma serve_outbound (py : Runtime) (env : Env) (request : Request) (st : State) :
  snd (serve py env request st) = st
  ∨ ∃ url, path request = lit "/api/proxy"
      ∧ args_get (lit "url") (args request) = Some url
      ∧ url ≠ []
      ∧ snd (serve py env request st)
        = {| g_SITES := g_SITES st; outbound := outbound st ++ [(url, 10)] |}.
Proof.
  rewrite serve_state.
  destruct (url_map py (path request)) as [ep|] eqn:Hmap; [|by left].
  destruct ep as [| |site_id| |]; cbn [view].
  - left. unfold home, mbind, M_bind, render_template.
    by destruct (templates env (lit "index.html") request).
  - by left.
  - left. apply get_site_state.
  - apply url_map_proxy_inv in Hmap.
    destruct (proxy_request_cases env st request)
      as [[_ ->] | (url & Harg & Hne & [(response & _ & ->) | [(d & _ & ->) | (e & _ & _ & ->)]])];
      [by left | right; by exists url..].
  - by left.
Qed.

(** X6: over any sequence of requests, the log of outbound GETs only
    grows, by at most one entry per request; every entry added has the
    10 s timeout and, as target, the non-empty first [url] parameter
    of one of the requests sent to [/api/proxy].  The process never
    calls out on its own, never retries, never uses another timeout. *)
Theorem outbound_log_over_lifetime (py : Runtime) (requests : list (Env * Request)) (st : State) :
  ∃ new : list (str * Z),
    outbound (snd (run py requests st)) = outbound st ++ new
    ∧ (length new ≤ length requests)%nat
    ∧ Forall (λ call,
        call.2 = 10
        ∧ call.1 ≠ []
        ∧ ∃ env request, (env, request) ∈ requests
            ∧ path request = lit "/api/proxy"
            ∧ args_get (lit "url") (args request) = Some call.1) new.
Proof.
  revert st. induction requests as [|[env request] rest IH]; intros st.
  { exists []. cbn. split; [by rewrite app_nil_r|]. split; [lia | constructor]. }
  cbn [run].
  pose proof (serve_outbound py env request st) as Hserve.
  destruct (serve py env request st) as [r st1]. cbn [snd] in Hserve.
  destruct (IH st1) as (new & Hlog & Hlen & Hall).
  destruct (run py rest st1) as [rs st2]. cbn [snd] in *.
  assert (Hrest : Forall (λ call,
        call.2 = 10 ∧ call.1 ≠ []
        ∧ ∃ env0 request0, (env0, request0) ∈ (env, request) :: rest
            ∧ path request0 = lit "/api/proxy"
            ∧ args_get (lit "url") (args request0) = Some call.1) new).
  { eapply Forall_impl; [exact Hall|].
    intros call (Ht & Hne & env0 & request0 & Hin & Hp & Ha).
    split; [done|]. split; [done|]. exists env0, request0.
    split; [apply elem_of_cons; by right | done]. }
  destruct Hserve as [-> | (url & Hpath & Harg & Hne & ->)].
  - exists new. split; [done|]. split; [cbn; lia | done].
  - exists ((url, 10) :: new). cbn [outbound] in Hlog.
    split; [by rewrite Hlog, <- app_assoc|].
    split; [cbn; lia|].
    constructor; [|done]. cbn. split; [done|]. split; [done|].
    exists env, request. split; [apply elem_of_cons; by left | done].
Qed.

(** X7: [proxy_request] catches [RequestException] and nothing else:
    when [requests.get] raises any other exception, the view raises it
    too, after the GET was issued, and (exception propagation off) the
    client gets the 500 handler's "Internal server error", not the
    exception's text. *)
Theorem proxy_uncaught_exception (py : Runtime)
    (env : Env) (st : State) (a : list (str * str)) (url : str) (e : exn) :
  args_get (lit "url") a = Some url →
  url ≠ [] →
  network env url 10 = Raise e →
  (∀ d, e ≠ RequestException d) →
  let request := {| path := lit "/api/proxy"; args := a |} in
  let st' := {| g_SITES := g_SITES st; outbound := outbound st ++ [(url, 10)] |} in
  proxy_request request env st = (Raise e, st')
  ∧ serve py env request st = (error_envelope (lit "Internal server error") 500, st').
Proof.
  intros Harg Hne Hnet Hother request st'.
  assert (Hview : proxy_request request env st = (Raise e, st')).
  { rewrite (proxy_request_fetch env st request url Harg Hne).
    unfold try_except_RequestException, mbind, M_bind.
    rewrite requests_get_logged, Hnet.
    destruct e as [k|d|n|d]; try reflexivity. by destruct (Hother d). }
  split; [exact Hview|].
  unfold serve. cbn [path request]. rewrite url_map_proxy.
  cbn [view]. by rewrite Hview.
Qed.

Lemma proxy_uncaught_exception_witness :
  let env := {| clock := sample_clock;
                network := λ _ _, Raise (OtherException (lit "UnicodeError"));
                templates := templates sample_env |} in
  fst (serve sample_runtime env {| path := lit "/api/proxy";
                    args := [(lit "url", lit "http://x")] |} startup)
  = internal_error.
Proof.
  intros env.
  destruct (proxy_uncaught_exception sample_runtime env startup [(lit "url", lit "http://x")]
              (lit "http://x") (OtherException (lit "UnicodeError")))
    as [_ Hserve]; [reflexivity | discriminate | reflexivity | discriminate |].
  rewrite Hserve. reflexivity.
Defined.

(** X8: the [headers] member of a proxy answer is a copy of the
    upstream headers: the same names, each with its upstream value as
    a string; none is added, dropped or rewritten. *)
Theorem proxy_copies_headers (py : Runtime)
    (env : Env) (st : State) (a : list (str * str)) (url : str) (response : upstream) :
  args_get (lit "url") a = Some url →
  url ≠ [] →
  network env url 10 = Ok response →
  ∃ h : gmap str val,
    field "headers" (fst (serve py env {| path := lit "/api/proxy"; args := a |} st))
      = Some (VDict h)
    ∧ dom h = dom (headers response)
    ∧ ∀ name, h !! name = VStr <$> headers response !! name.
Proof.
  intros Harg Hne Hnet.
  destruct (proxy_request_completed py env st a url response Harg Hne Hnet)
    as [_ Hserve].
  exists (VStr <$> headers response). rewrite Hserve.
  split; [reflexivity|]. split; [apply dom_fmap_L|].
  intros name. apply lookup_fmap.
Qed.

Lemma proxy_copies_headers_witness :
  ∃ h : gmap str val,
    field "headers"
      (fst (serve sample_runtime sample_env
              {| path := lit "/api/proxy";
                 args := [(lit "url", lit "http://down.example/")] |} startup))
      = Some (VDict h)
    ∧ h !! lit "Content-Type" = Some (VStr (lit "text/plain"))
    ∧ h !! lit "Server" = None.
Proof.
  destruct (proxy_copies_headers sample_runtime sample_env startup
              [(lit "url", lit "http://down.example/")]
              (lit "http://down.example/") sample_unavailable)
    as (h & Hfield & _ & Hlook);
    [reflexivity | discriminate | reflexivity |].
  exists h. split; [exact Hfield|].
  rewrite !Hlook. split; reflexivity.
Defined.

(** ** Ids that reach [get_site] through the route *)

Lemma strip_prefix_Some (prefix s r : str) :
  strip_prefix prefix s = Some r → s = prefix ++ r.
Proof.
  revert s. induction prefix as [|c prefix IH]; intros s; cbn [strip_prefix].
  - by intros [= ->].
  - destruct s as [|d s]; [discriminate|].
    destruct (N.eqb_spec c d) as [-> | _]; [|discriminate].
    intros Hs. by rewrite (IH s Hs).
Qed.

Lemma url_map_get_site_inv (py : Runtime) (p : str) (n : Z) :
  url_map py p = Some (EP_get_site n) →
  ∃ segment, p = lit "/api/sites/" ++ segment ∧ int_converter py segment = Some n.
Proof.
  unfold url_map.
  repeat (case_decide; [discriminate|]).
  destruct (strip_prefix (lit "/api/sites/") p) as [segment|] eqn:Hstrip;
    cbn [mbind option_bind].
  - destruct (int_converter py segment) as [m|] eqn:Hconv.
    + intros [= ->]. exists segment. split; [|done]. by apply strip_prefix_Some.
    + repeat (case_decide; [discriminate|]). discriminate.
  - repeat (case_decide; [discriminate|]). discriminate.
Qed.

Lemma digits_value_snoc (py : Runtime) (l : str) (c : N) :
  digits_value py (l ++ [c])
  = 10 * digits_value py l + Z.of_N (default 0%N (unicode_decimal py c)).
Proof. unfold digits_value. by rewrite fold_left_app. Qed.

Lemma digits_value_nonneg (py : Runtime) (segment : str) :
  0 ≤ digits_value py segment.
Proof.
  induction segment as [|c l IH] using rev_ind; [done|].
  rewrite digits_value_snoc. lia.
Qed.

(** X10: the route hands [get_site] only what [int] made of a
    non-empty string of decimal digits that [\d+] matched, so the id
    it receives is never negative: a path that reaches [get_site n]
    is [/api/sites/] followed by such digits, no more of them than
    the interpreter's limit allows, and [n] is their value. *)
Theorem routed_ids_are_non_negative (py : Runtime) (p : str) (n : Z) :
  url_map py p = Some (EP_get_site n) →
  0 ≤ n
  ∧ ∃ segment : str,
      p = lit "/api/sites/" ++ segment
      ∧ segment ≠ []
      ∧ Forall (λ c, is_Some (unicode_decimal py c)) segment
      ∧ (int_max_str_digits py = 0 ∨ length segment ≤ int_max_str_digits py)%nat
      ∧ n = digits_value py segment.
Proof.
  intros Hmap.
  destruct (url_map_get_site_inv py p n Hmap) as (segment & -> & Hconv).
  unfold int_converter, matches_digits, int_of_digits in Hconv.
  destruct segment as [|c l]; [discriminate|].
  cbn [length Nat.eqb negb andb] in Hconv.
  match type of Hconv with
  | context [forallb ?f (c :: l)] =>
      destruct (forallb f (c :: l)) eqn:Hdigits; [|discriminate]
  end.
  destruct (Nat.eqb_spec (int_max_str_digits py) 0) as [Hzero | Hlimit];
    cbn [negb andb] in Hconv.
  - injection Hconv as <-. split; [apply digits_value_nonneg|].
    exists (c :: l). repeat split; [done| |by left].
    apply Forall_forall. intros d Hd. rewrite forallb_forall in Hdigits.
    apply list_elem_of_In, Hdigits in Hd.
    by destruct (unicode_decimal py d).
  - destruct (Nat.ltb_spec (int_max_str_digits py) (S (length l))) as [Hlong | Hfits];
      [discriminate|].
    injection Hconv as <-. split; [apply digits_value_nonneg|].
    exists (c :: l). repeat split; [done| |by right].
    apply Forall_forall. intros d Hd. rewrite forallb_forall in Hdigits.
    apply list_elem_of_In, Hdigits in Hd.
    by destruct (unicode_decimal py d).
Qed.

Lemma routed_ids_are_non_negative_witness :
  0 ≤ 7 ∧ ∃ segment : str,
    lit "/api/sites/007" = lit "/api/sites/" ++ segment
    ∧ segment ≠ []
    ∧ Forall (λ c, is_Some (unicode_decimal sample_runtime c)) segment
    ∧ (int_max_str_digits sample_runtime = 0
       ∨ length segment ≤ int_max_str_digits sample_runtime)%nat
    ∧ 7 = digits_value sample_runtime segment.
Proof.
  apply (routed_ids_are_non_negative sample_runtime (lit "/api/sites/007") 7).
  reflexivity.
Defined.

Lemma zero_padded_length (w : nat) (n : N) : length (zero_padded w n) = w.
Proof.
  revert n. induction w as [|w IH]; intros n; [reflexivity|].
  cbn [zero_padded]. rewrite length_app, IH. cbn. lia.
Qed.

Lemma unicode_decimal_digit_char (py : Runtime) (n : N) :
  runtime_ok py → unicode_decimal py (digit_char n) = Some (n mod 10)%N.
Proof.
  intros Hok. rewrite Hok.
  - rewrite is_digit_digit_char. unfold digit_char.
    by rewrite (N.add_comm 48), N.add_sub.
  - unfold digit_char.
    pose proof (N.mod_upper_bound n 10 ltac:(discriminate)) as Hlt.
    generalize dependent (n mod 10)%N. intros r Hlt. lia.
Qed.

Lemma zero_padded_matches (py : Runtime) (w : nat) (n : N) :
  runtime_ok py →
  forallb (λ c, match unicode_decimal py c with
                | Some _ => true
                | None => false
                end) (zero_padded w n) = true.
Proof.
  intros Hok. revert n. induction w as [|w IH]; intros n; [reflexivity|].
  cbn [zero_padded]. rewrite forallb_app, IH. cbn [forallb].
  by rewrite unicode_decimal_digit_char.
Qed.

Lemma digits_value_zero_padded (py : Runtime) (w : nat) (n : N) :
  runtime_ok py →
  digits_value py (zero_padded w n) = Z.of_N (n mod 10 ^ N.of_nat w).
Proof.
  intros Hok. revert n. induction w as [|w IH]; intros n.
  { cbn. by rewrite N.mod_1_r. }
  cbn [zero_padded]. rewrite digits_value_snoc, IH.
  rewrite unicode_decimal_digit_char by done. cbn [from_option]. unfold id.
  rewrite Nat2N.inj_succ, N.pow_succ_r'.
  rewrite (N.Div0.mod_mul_r n 10 (10 ^ N.of_nat w)).
  generalize (n mod 10)%N ((n / 10) mod 10 ^ N.of_nat w)%N. intros lo hi. lia.
Qed.

(** X11: printing and converting an id are inverse: for every natural
    number [n] written with [w] ASCII decimal digits, leading zeros
    included, and [w] within the interpreter's limit for [int],
    GET /api/sites/<digits> is routed to [get_site n]. *)
Theorem decimal_id_round_trip (py : Runtime) (w : nat) (n : N) :
  runtime_ok py →
  (0 < w)%nat →
  (int_max_str_digits py = 0 ∨ w ≤ int_max_str_digits py)%nat →
  (n < 10 ^ N.of_nat w)%N →
  int_converter py (zero_padded w n) = Some (Z.of_N n)
  ∧ url_map py (lit "/api/sites/" ++ zero_padded w n) = Some (EP_get_site (Z.of_N n)).
Proof.
  intros Hok Hw Hlimit Hn.
  assert (Hconv : int_converter py (zero_padded w n) = Some (Z.of_N n)).
  { unfold int_converter, matches_digits, int_of_digits.
    rewrite zero_padded_length, zero_padded_matches by done.
    rewrite digits_value_zero_padded by done.
    rewrite N.mod_small by done.
    destruct w as [|w]; [lia|]. cbn [Nat.eqb negb andb].
    destruct Hlimit as [-> | Hfits]; [reflexivity|].
    destruct (Nat.ltb_spec (int_max_str_digits py) (S w)); [lia|].
    by rewrite andb_false_r. }
  split; [exact Hconv|].
  by rewrite url_map_site_segment, Hconv.
Qed.

Lemma decimal_id_round_trip_witness :
  url_map sample_runtime (lit "/api/sites/0042") = Some (EP_get_site 42).
Proof.
  apply (decimal_id_round_trip sample_runtime 4 42);
    [apply sample_runtime_ok | lia | right; cbn; lia | reflexivity].
Defined.

(** ** The listing and the lookup agree *)

(** X12: the two catalog endpoints are consistent on every catalog:
    a record that [get_site] returns with status 200 is one of the
    entries of the [data] list that [get_sites] returns in the same
    state, and its ['id'] equals the id asked for. *)
Theorem found_site_is_listed
    (env env' : Env) (st : State) (site_id : Z) (r : Response) :
  fst (get_site site_id env st) = Ok r →
  status r = 200 →
  ∃ (s : gmap str val) (listed : list val),
    field "data" r = Some (VDict s)
    ∧ id_test site_id s = Some true
    ∧ (∀ listing, fst (get_sites env' st) = Ok listing →
         field "data" listing = Some (VList listed))
    ∧ VDict s ∈ listed.
Proof.
  intros Hr Hstatus.
  unfold get_site, mbind, M_bind, read_SITES in Hr.
  destruct (next_with_id_cases site_id (g_SITES st) env st)
    as [(s & Hin & Ht & Heq) | [[Hall Heq] | (s & Hin & Hno & Heq)]];
    rewrite Heq in Hr.
  - rewrite (truthy_dict_with_key s (lit "id")) in Hr;
      [|by apply id_test_has_key with site_id true].
    cbn in Hr. injection Hr as <-.
    exists s, (VDict <$> g_SITES st).
    split; [reflexivity|]. split; [done|]. split.
    + intros listing [= <-]. reflexivity.
    + by apply list_elem_of_fmap_2.
  - cbn in Hr. injection Hr as <-. discriminate.
  - discriminate.
Qed.

Lemma found_site_is_listed_witness :
  ∃ (s : gmap str val) (listed : list val),
    s !! lit "title" = Some (VStr (lit "Instructions Online"))
    ∧ VDict s ∈ listed
    ∧ length listed = 4%nat.
Proof.
  set (third := ({[
     lit "id" := VInt 3;
     lit "url" := VStr (lit "https://instructions.online/?id=4610-25-0922-0650-rq200-servoarms_small-now");
     lit "title" := VStr (lit "Instructions Online");
     lit "description" := VStr (lit "RQ200 Servo Arms instructions and guide");
     lit "category" := VStr (lit "docs") ]} : gmap str val)).
  destruct (found_site_is_listed sample_env sample_env startup 3
              (jsonify (VDict {[ lit "success" := VBool true;
                                 lit "data" := VDict third ]})))
    as (s & listed & Hdata & _ & Hlisting & Hin); [reflexivity | reflexivity |].
  exists s, listed.
  injection Hdata as <-.
  specialize (Hlisting _ eq_refl). injection Hlisting as <-.
  split; [reflexivity|]. split; [exact Hin | reflexivity].
Defined.
